(** * The project servers of [data/projects/<id>/server.py]

    Every instance of the repository is the same Flask application: three
    view functions that build a dictionary and hand it to [jsonify], and a
    [__main__] block that reads the port from the environment.  The
    instances differ in one string literal, the project identifier.

    The embedding follows the Python text line by line.  What the
    application calls but does not define is kept at the boundary:
    - the wall clock read by [datetime.now()] is part of the process state;
    - [request.get_json()] is a member of the request object, given with the
      request: the decoded body, or the exception that leaves the call;
    - Python's [int] on a [str] is a variable of the section that holds
      [main]. *)

From Stdlib Require Import ZArith String Ascii Lia List.
From stdpp Require Import gmap strings list fin_maps sorting.

#[local] Set Warnings "-register-all".
#[local] Open Scope Z_scope.

(** ** Python values *)

(** The objects [json.loads] produces, which are also the objects the view
    functions put into the dictionaries they return.  A [float] is carried
    as its IEEE-754 binary64 bit pattern: the application never computes on
    one. *)
Inductive pyvalue : Type :=
  | PNone
  | PBool (b : bool)
  | PInt (n : Z)
  | PFloat (bits : Z)
  | PStr (s : string)
  | PList (l : list pyvalue)
  | PDict (d : gmap string pyvalue).

(** ** [datetime] *)

Module Datetime.

(** A naive [datetime.datetime]: the fields of the local civil time. *)
Record datetime : Type := mkDatetime {
  year : Z;
  month : Z;
  day : Z;
  hour : Z;
  minute : Z;
  second : Z;
  microsecond : Z;
}.

Definition is_leap (y : Z) : bool :=
  (y mod 4 =? 0) && (negb (y mod 100 =? 0) || (y mod 400 =? 0)).

Definition days_in_month (y m : Z) : Z :=
  if m =? 2 then (if is_leap y then 29 else 28)
  else if (m =? 4) || (m =? 6) || (m =? 9) || (m =? 11) then 30
  else 31.

Definition in_range (lo x hi : Z) : bool := (lo <=? x) && (x <=? hi).

(** The range checks of the [datetime] constructor: every [datetime]
    object of a running program satisfies them. *)
Definition valid_datetime (d : datetime) : bool :=
  in_range 1 (year d) 9999 &&
  in_range 1 (month d) 12 &&
  in_range 1 (day d) (days_in_month (year d) (month d)) &&
  in_range 0 (hour d) 23 &&
  in_range 0 (minute d) 59 &&
  in_range 0 (second d) 59 &&
  in_range 0 (microsecond d) 999999.

Definition digit (k : Z) : ascii := ascii_of_nat (Z.to_nat (48 + k)).

(** ["%0<width>d" % n] for [0 <= n < 10 ^ width]: the [width] decimal
    digits of [n], most significant first. *)
Fixpoint zfill (width : nat) (n : Z) : string :=
  match width with
  | O => EmptyString
  | S w => String (digit (n / 10 ^ Z.of_nat w)) (zfill w (n mod 10 ^ Z.of_nat w))
  end.

(** [_format_time(hh, mm, ss, us, 'auto')]: the fraction is printed only
    when it is not zero. *)
Definition format_time (hh mm ss us : Z) : string :=
  zfill 2 hh +:+ ":" +:+ zfill 2 mm +:+ ":" +:+ zfill 2 ss +:+
  (if us =? 0 then EmptyString else "." +:+ zfill 6 us).

(** [datetime.isoformat()] with its default separator ['T'] on a naive
    datetime (no UTC offset is appended). *)
Definition isoformat (d : datetime) : string :=
  zfill 4 (year d) +:+ "-" +:+ zfill 2 (month d) +:+ "-" +:+ zfill 2 (day d) +:+ "T" +:+
  format_time (hour d) (minute d) (second d) (microsecond d).

(** Comparison of naive datetimes: the tuples of fields, in order. *)
Definition then_cmp (c1 c2 : comparison) : comparison :=
  match c1 with Eq => c2 | _ => c1 end.

Definition datetime_cmp (a b : datetime) : comparison :=
  then_cmp (year a ?= year b)
 (then_cmp (month a ?= month b)
 (then_cmp (day a ?= day b)
 (then_cmp (hour a ?= hour b)
 (then_cmp (minute a ?= minute b)
 (then_cmp (second a ?= second b)
           (microsecond a ?= microsecond b)))))).

Definition datetime_le (a b : datetime) : bool :=
  match datetime_cmp a b with Gt => false | _ => true end.

(** *** Reading a timestamp back

    The ISO-8601 profile used to judge the timestamps: the complete
    extended representation of a local date and time,
    [YYYY-MM-DDThh:mm:ss], optionally followed by a decimal fraction of
    six digits, with fields that denote an existing instant. *)

Definition digit_value (c : ascii) : option Z :=
  let n := Z.of_nat (nat_of_ascii c) in
  if in_range 48 n 57 then Some (n - 48) else None.

Fixpoint read_digits (width : nat) (acc : Z) (s : string) : option (Z * string) :=
  match width with
  | O => Some (acc, s)
  | S w =>
      match s with
      | String c s' =>
          match digit_value c with
          | Some v => read_digits w (10 * acc + v) s'
          | None => None
          end
      | EmptyString => None
      end
  end.

Definition expect (c : ascii) (s : string) : option string :=
  match s with
  | String c' s' => if Ascii.eqb c c' then Some s' else None
  | EmptyString => None
  end.

Definition read_fraction (s : string) : option Z :=
  match s with
  | EmptyString => Some 0
  | String c s' =>
      if Ascii.eqb c "." then
        match read_digits 6 0 s' with
        | Some (us, EmptyString) => Some us
        | _ => None
        end
      else None
  end.

Definition parse_iso8601 (s : string) : option datetime :=
  '(y, s) ← read_digits 4 0 s;
  s ← expect "-" s;
  '(m, s) ← read_digits 2 0 s;
  s ← expect "-" s;
  '(d, s) ← read_digits 2 0 s;
  s ← expect "T" s;
  '(hh, s) ← read_digits 2 0 s;
  s ← expect ":" s;
  '(mm, s) ← read_digits 2 0 s;
  s ← expect ":" s;
  '(ss, s) ← read_digits 2 0 s;
  us ← read_fraction s;
  Some (mkDatetime y m d hh mm ss us).

Definition is_iso8601 (s : string) : bool :=
  match parse_iso8601 s with
  | Some d => valid_datetime d
  | None => false
  end.

(** Chronological order of two timestamps: the order of the instants they
    denote. *)
Definition timestamp_le (s1 s2 : string) : bool :=
  match parse_iso8601 s1, parse_iso8601 s2 with
  | Some a, Some b => datetime_le a b
  | _, _ => false
  end.

End Datetime.
Import Datetime.

(** ** The process: exceptions, the clock, the view-function monad *)

(** The HTTP exceptions [Request.get_json] raises: [BadRequest] for a body
    the decoder rejects, and (in the Werkzeug releases that check it)
    [UnsupportedMediaType] for a request that does not declare JSON. *)
Inductive HTTPException : Type :=
  | BadRequest
  | UnsupportedMediaType.

Definition code (e : HTTPException) : Z :=
  match e with
  | BadRequest => 400
  | UnsupportedMediaType => 415
  end.

(** Python exceptions: Werkzeug's HTTP exceptions, and the built-in ones
    the application meets.  [RecursionError] is what the JSON decoder lets
    escape from [get_json] on input nested too deeply. *)
Inductive Exception : Type :=
  | HTTP (e : HTTPException)
  | ValueError
  | RecursionError.

Inductive Result (A : Type) : Type :=
  | Return (a : A)
  | Raise (e : Exception).
Arguments Return {A} a.
Arguments Raise {A} e.

(** What the handlers can observe of the process they run in: the local
    wall clock.  [wall_clock n] is the reading the [n]-th call of
    [datetime.now()] gets; [reads] counts the calls made so far. *)
Record World : Type := mkWorld {
  wall_clock : nat → datetime;
  reads : nat;
}.

(** Computations that read the clock and may raise. *)
Definition M (A : Type) : Type := World → Result A * World.

Definition ret {A : Type} (a : A) : M A := λ w, (Return a, w).

Definition raise {A : Type} (e : Exception) : M A := λ w, (Raise e, w).

Definition bind {A B : Type} (m : M A) (k : A → M B) : M B :=
  λ w, match m w with
       | (Return a, w') => k a w'
       | (Raise e, w') => (Raise e, w')
       end.

Declare Scope py_scope.
Delimit Scope py_scope with py.
Notation "x <- m ;; k" := (bind m (λ x, k))
  (at level 100, m at next level, right associativity) : py_scope.

Definition tick (w : World) : World :=
  mkWorld (wall_clock w) (S (reads w)).

Definition reading (w : World) : datetime := wall_clock w (reads w).

(** [datetime.now()] *)
Definition datetime_now : M datetime := λ w, (Return (reading w), tick w).

(** ** The Flask objects the view functions touch *)

(** [flask.request].  [method] is in upper case and [path] is the decoded
    path without the query, as Werkzeug gives them.  [get_json] is the
    outcome of [request.get_json()] with its default arguments on this
    request: the value returned, or the exception that leaves the call. *)
Record Request : Type := mkRequest {
  method : string;
  path : string;
  content_type : option string;
  data : string;
  get_json : Exception + pyvalue;
}.

Definition request_get_json (request : Request) : M pyvalue :=
  match get_json request with
  | inr v => ret v
  | inl e => raise e
  end.

Inductive Body : Type :=
  | JSON (d : gmap string pyvalue)
  | ErrorPage.

Record Response : Type := mkResponse {
  status_code : Z;
  mimetype : string;
  body : Body;
}.

(** [jsonify(d)]: a response of status 200 that carries [d] as JSON. *)
Definition jsonify (d : gmap string pyvalue) : Response :=
  mkResponse 200 "application/json" (JSON d).

(** The response Flask builds from an exception that leaves a view function:
    an [HTTPException] becomes a response with its own code
    ([handle_http_exception]), anything else the 500 page
    ([handle_exception]; with [debug=True] the page comes from the
    debugger, the status is the same). *)
Definition handle_user_exception (e : Exception) : Response :=
  match e with
  | HTTP h => mkResponse (code h) "text/html" ErrorPage
  | _ => mkResponse 500 "text/html" ErrorPage
  end.

(** ** server.py *)

Inductive Endpoint : Type :=
  | Health
  | GetProjects
  | CreateProject.

(** The three [@app.route] decorators: rule, methods, endpoint.  A rule
    without [methods] is declared for GET. *)
Definition url_map : list (string * list string * Endpoint) :=
  [ ("/health"%string, ["GET"%string], Health);
    ("/api/projects"%string, ["GET"%string], GetProjects);
    ("/api/projects"%string, ["POST"%string], CreateProject) ].

(** The methods that run the view function of a rule declared with
    [methods]: Werkzeug adds HEAD to every rule that answers GET.  (It adds
    OPTIONS too, but Flask answers an OPTIONS request itself, without
    calling the view function.) *)
Definition rule_methods (methods : list string) : list string :=
  if existsb (String.eqb "GET") methods then methods ++ ["HEAD"%string] else methods.

Definition rule_matches (request : Request) (rule : string * list string * Endpoint) : bool :=
  String.eqb (path request) rule.1.1 &&
  existsb (String.eqb (method request)) (rule_methods rule.1.2).

(** The endpoint a request is routed to.  [None]: the request reaches no
    view function of the application (Flask answers it on its own: 404,
    405, or the automatic answer to OPTIONS). *)
Definition match_request (request : Request) : option Endpoint :=
  snd <$> List.find (rule_matches request) url_map.

Section Server.

(** The identifier literal of the instance. *)
Variable project : string.

Definition health : M Response :=
  (now <- datetime_now ;;
   ret (jsonify (<["project" := PStr project]>
                (<["timestamp" := PStr (isoformat now)]>
                (<["status" := PStr "healthy"]> ∅)))))%py.

Definition get_projects : M Response :=
  (now <- datetime_now ;;
   ret (jsonify (<["timestamp" := PStr (isoformat now)]>
                (<["project" := PStr project]>
                (<["message" := PStr "Projects API endpoint"]> ∅)))))%py.

Definition create_project (request : Request) : M Response :=
  (data <- request_get_json request ;;
   now <- datetime_now ;;
   ret (jsonify (<["timestamp" := PStr (isoformat now)]>
                (<["data" := data]>
                (<["message" := PStr "Project created"]> ∅)))))%py.

Definition view_functions (endpoint : Endpoint) (request : Request) : M Response :=
  match endpoint with
  | Health => health
  | GetProjects => get_projects
  | CreateProject => create_project request
  end.

(** [Flask.full_dispatch_request]: route, run the view function, turn an
    exception into its response.  The result is the response object; of the
    response to a HEAD request the server sends the status and the headers
    only. *)
Definition full_dispatch_request (request : Request) (w : World)
  : option Response * World :=
  match match_request request with
  | None => (None, w)
  | Some endpoint =>
      match view_functions endpoint request w with
      | (Return rv, w') => (Some rv, w')
      | (Raise e, w') => (Some (handle_user_exception e), w')
      end
  end.

(** Requests served one after the other by one process. *)
Fixpoint serve (requests : list Request) (w : World) : list (option Response) * World :=
  match requests with
  | [] => ([], w)
  | request :: rest =>
      let '(rv, w') := full_dispatch_request request w in
      let '(rvs, w'') := serve rest w' in
      (rv :: rvs, w'')
  end.

End Server.

(** The instances under [data/projects/]: one [server.py] each, the text
    above with [project] replaced by the directory's name. *)
Definition instances : list string :=
  [ "0d5e630e-d302-4f92-b4ef-f1645b372a43"%string;
    "89cd361a-94b3-4ffa-bdaa-e6728658f6de"%string;
    "a908e135-0a1d-4e2a-8242-bd40240a1383"%string;
    "acc4aa53-0435-4c50-b4fd-92bc81f3c495"%string;
    "b6f6f351-eac3-48fd-be53-4481db9ade2a"%string;
    "eb43a8a3-f1b3-41e1-a900-885fc864eef7"%string ].

(** *** Observations on responses *)

Definition field (name : string) (rv : Response) : option pyvalue :=
  match body rv with
  | JSON d => d !! name
  | ErrorPage => None
  end.

Definition fields (rv : Response) : gset string :=
  match body rv with
  | JSON d => dom d
  | ErrorPage => ∅
  end.

Definition timestamp (rv : Response) : option string :=
  match field "timestamp" rv with
  | Some (PStr s) => Some s
  | _ => None
  end.

Definition timestamps (rvs : list (option Response)) : list string :=
  omap (λ rv, rv ≫= timestamp) rvs.

(** Replace the identifier [old] by [new] where a response shows it: the
    [project] field. *)
Definition substitute (old new : string) (v : pyvalue) : pyvalue :=
  match v with
  | PStr s => if String.eqb s old then PStr new else v
  | _ => v
  end.

Definition substitute_identifier (old new : string) (rv : Response) : Response :=
  match body rv with
  | JSON d => mkResponse (status_code rv) (mimetype rv)
                (JSON (alter (substitute old new) "project" d))
  | ErrorPage => rv
  end.

(** *** [__main__] *)

Record AppRun : Type := mkAppRun {
  host : string;
  port : Z;
  debug : bool;
}.

Section Main.

(** Python's [int] applied to a [str]; [None] stands for [ValueError]. *)
Variable int_of_str : string → option Z.

(** [os.environ.get(key, default)] with an integer default: the string of
    the variable, or the default itself. *)
Definition environ_get (environ : gmap string string) (key : string) (default : Z)
  : string + Z :=
  match environ !! key with
  | Some s => inl s
  | None => inr default
  end.

(** [int(x)] for the two kinds of object [environ_get] returns. *)
Definition int (x : string + Z) : Result Z :=
  match x with
  | inr n => Return n
  | inl s =>
      match int_of_str s with
      | Some n => Return n
      | None => Raise ValueError
      end
  end.

(** The block under [if __name__ == '__main__']: the arguments [app.run]
    is called with, or the exception that ends the script before. *)
Definition main (environ : gmap string string) : Result AppRun :=
  match int (environ_get environ "PORT" 5000) with
  | Return port => Return (mkAppRun "0.0.0.0" port true)
  | Raise e => Raise e
  end.

End Main.

(** Plain decimal literals, [-]?[0-9]+: the core of what [int] accepts. *)
Fixpoint decimal_digits (acc : Z) (s : string) : option Z :=
  match s with
  | EmptyString => Some acc
  | String c s' =>
      match digit_value c with
      | Some v => decimal_digits (10 * acc + v) s'
      | None => None
      end
  end.

Definition decimal_literal (s : string) : option Z :=
  match s with
  | EmptyString => None
  | String "-" (String _ _ as s') => Z.opp <$> decimal_digits 0 s'
  | _ => decimal_digits 0 s
  end.

(** ** Sample inputs *)

Definition sample_project : string := "0d5e630e-d302-4f92-b4ef-f1645b372a43".

Definition GET (path : string) : Request :=
  mkRequest "GET" path None EmptyString (inl (HTTP UnsupportedMediaType)).

(** A POST that declares JSON, with what the decoder makes of the body. *)
Definition POST_json (path data : string) (decoded : option pyvalue) : Request :=
  mkRequest "POST" path (Some "application/json"%string) data
    (match decoded with Some v => inr v | None => inl (HTTP BadRequest) end).

Definition demo_payload : pyvalue :=
  PDict (<["name" := PStr "demo"]> ∅).

(** The text of [demo_payload]; [dquote] is the double quote character. *)
Definition dquote : string := String (ascii_of_nat 34) EmptyString.

Definition demo_body : string :=
  "{" +:+ dquote +:+ "name" +:+ dquote +:+ ": " +:+ dquote +:+ "demo" +:+ dquote +:+ "}".

(** A POST of [null] that declares JSON, and a POST of an empty body that
    declares nothing, on a framework whose [get_json] returns [None] for
    it. *)
Definition POST_null : Request := POST_json "/api/projects" "null" (Some PNone).

Definition POST_nothing : Request :=
  mkRequest "POST" "/api/projects" None EmptyString (inr PNone).

Definition HEAD (path : string) : Request :=
  mkRequest "HEAD" path None EmptyString (inl (HTTP UnsupportedMediaType)).

(** A POST that declares JSON with a body of 1000 opening brackets: the
    text is not JSON, and the decoder does not get to say so, it exceeds the
    recursion limit first. *)
Fixpoint brackets (n : nat) : string :=
  match n with
  | O => EmptyString
  | S k => String "[" (brackets k)
  end.

Definition POST_deep : Request :=
  mkRequest "POST" "/api/projects" (Some "application/json"%string)
    (brackets 1000) (inl RecursionError).

Definition sample_requests : list Request :=
  [ GET "/health";
    POST_json "/api/projects" demo_body (Some demo_payload);
    POST_json "/api/projects" "{name" None;
    GET "/api/projects";
    HEAD "/health";
    POST_deep ].

(** A clock that advances by one microsecond per reading (and stays within
    the second). *)
Definition steady_clock (n : nat) : datetime :=
  mkDatetime 2024 6 1 12 0 0 (Z.min (Z.of_nat n) 999999).

(** The local clock of a zone that leaves daylight saving time: the reading
    after 01:59:59 is again in the hour that starts at 01:00. *)
Definition fall_back_clock (n : nat) : datetime :=
  match n with
  | O => mkDatetime 2024 11 3 1 59 59 500000
  | S _ => mkDatetime 2024 11 3 1 0 0 250000
  end.

(** ** Counting the answers of a run *)

Definition answered_ok (rv : option Response) : bool :=
  match rv with
  | Some rv => status_code rv =? 200
  | None => false
  end.

Definition count_ok (rvs : list (option Response)) : nat :=
  length (List.filter answered_ok rvs).

(** * Properties *)

(** ** Timestamps are read back as the datetime they were printed from *)

Module DatetimeFacts.

Lemma digit_value_digit (k : Z) :
  0 <= k <= 9 → digit_value (digit k) = Some k.
Proof.
  intros Hk.
  assert (Hcases : k = 0 ∨ k = 1 ∨ k = 2 ∨ k = 3 ∨ k = 4 ∨
                   k = 5 ∨ k = 6 ∨ k = 7 ∨ k = 8 ∨ k = 9) by lia.
  repeat (destruct Hcases as [-> | Hcases]; [reflexivity |]).
  subst k. reflexivity.
Qed.

Lemma pow10_pos (w : nat) : 0 < 10 ^ Z.of_nat w.
Proof. apply Z.pow_pos_nonneg; lia. Qed.

Lemma pow10_succ (w : nat) : 10 ^ Z.of_nat (S w) = 10 * 10 ^ Z.of_nat w.
Proof. rewrite Nat2Z.inj_succ, Z.pow_succ_r; lia. Qed.

Lemma leading_digit (w : nat) (n : Z) :
  0 <= n < 10 ^ Z.of_nat (S w) → 0 <= n / 10 ^ Z.of_nat w <= 9.
Proof.
  intros [Hlo Hhi]. rewrite pow10_succ in Hhi.
  pose proof (pow10_pos w) as Hp. split.
  - apply Z.div_pos; lia.
  - apply Z.lt_succ_r. apply Z.div_lt_upper_bound; lia.
Qed.

Lemma append_String (c : ascii) (s t : string) :
  String c s +:+ t = String c (s +:+ t).
Proof. reflexivity. Qed.

Lemma append_empty_l (s : string) : EmptyString +:+ s = s.
Proof. reflexivity. Qed.

Lemma append_empty_r (s : string) : s +:+ EmptyString = s.
Proof. induction s as [| c s IH]; [reflexivity |]. rewrite append_String, IH. reflexivity. Qed.

Lemma read_digits_zfill (width : nat) :
  ∀ (n acc : Z) (rest : string),
    0 <= n < 10 ^ Z.of_nat width →
    read_digits width acc (zfill width n +:+ rest)
    = Some (acc * 10 ^ Z.of_nat width + n, rest).
Proof.
  induction width as [| w IH]; intros n acc rest Hn.
  - cbn [zfill read_digits]. rewrite append_empty_l. f_equal. f_equal.
    change (10 ^ Z.of_nat 0) with 1 in *. lia.
  - cbn [zfill]. rewrite append_String. cbn [read_digits].
    pose proof (pow10_pos w) as Hp.
    rewrite digit_value_digit by (apply leading_digit; exact Hn).
    rewrite IH by (apply Z.mod_pos_bound; exact Hp).
    f_equal. f_equal. rewrite pow10_succ.
    pose proof (Z.div_mod n (10 ^ Z.of_nat w)) as Hdm. nia.
Qed.

Lemma read_digits_zfill_end (width : nat) (n : Z) :
  0 <= n < 10 ^ Z.of_nat width →
  read_digits width 0 (zfill width n) = Some (n, EmptyString).
Proof.
  intros Hn.
  rewrite <- (append_empty_r (zfill width n)).
  rewrite read_digits_zfill by exact Hn. reflexivity.
Qed.

Lemma read_fraction_format (us : Z) :
  0 <= us <= 999999 →
  read_fraction (if us =? 0 then EmptyString else String "." (zfill 6 us)) = Some us.
Proof.
  intros Hus. destruct (Z.eqb_spec us 0) as [-> | Hne]; [reflexivity |].
  cbn [read_fraction]. change (Ascii.eqb "." ".") with true. cbv iota.
  rewrite read_digits_zfill_end; [reflexivity |].
  change (10 ^ Z.of_nat 6) with 1000000. lia.
Qed.

Lemma valid_datetime_ranges (d : datetime) :
  valid_datetime d = true →
  (1 <= year d <= 9999) ∧ (1 <= month d <= 12) ∧ (1 <= day d <= 31) ∧
  (0 <= hour d <= 23) ∧ (0 <= minute d <= 59) ∧ (0 <= second d <= 59) ∧
  (0 <= microsecond d <= 999999).
Proof.
  unfold valid_datetime, in_range. intros H.
  repeat (apply andb_prop in H; destruct H as [H ?]).
  assert (Hdim : days_in_month (year d) (month d) <= 31).
  { unfold days_in_month.
    repeat match goal with |- context [if ?b then _ else _] => destruct b end; lia. }
  lia.
Qed.

(** Printing a datetime and reading the text back gives the datetime. *)
Lemma parse_isoformat (d : datetime) :
  valid_datetime d = true → parse_iso8601 (isoformat d) = Some d.
Proof.
  intros Hv. apply valid_datetime_ranges in Hv.
  destruct Hv as (Hy & Hm & Hd & Hh & Hmi & Hs & Hus).
  destruct d as [y m dd hh mi ss us]; cbn [year month day hour minute second microsecond] in *.
  unfold parse_iso8601, isoformat, format_time.
  cbn [year month day hour minute second microsecond].
  rewrite ?append_String, ?append_empty_l.
  repeat (rewrite read_digits_zfill
            by (first [ change (10 ^ Z.of_nat 4) with 10000
                      | change (10 ^ Z.of_nat 2) with 100 ]; lia);
          cbn [mbind option_bind expect];
          match goal with
          | |- context [Ascii.eqb ?a ?a] => change (Ascii.eqb a a) with true; cbv iota
          | _ => idtac
          end;
          cbn [mbind option_bind]).
  rewrite read_fraction_format by exact Hus.
  reflexivity.
Qed.

Lemma isoformat_is_iso8601 (d : datetime) :
  valid_datetime d = true → is_iso8601 (isoformat d) = true.
Proof.
  intros Hv. unfold is_iso8601. rewrite parse_isoformat by exact Hv. exact Hv.
Qed.

Lemma timestamp_le_isoformat (a b : datetime) :
  valid_datetime a = true → valid_datetime b = true →
  timestamp_le (isoformat a) (isoformat b) = datetime_le a b.
Proof.
  intros Ha Hb. unfold timestamp_le. rewrite !parse_isoformat by assumption.
  reflexivity.
Qed.

(** *** The order of the printed timestamps

    Comparing two printed datetimes as strings, character by character,
    gives the comparison of the datetimes. *)

Lemma compare_digit (p q : Z) :
  0 <= p <= 9 → 0 <= q <= 9 → Ascii.compare (digit p) (digit q) = (p ?= q).
Proof.
  intros Hp Hq.
  assert (Hpc : p = 0 ∨ p = 1 ∨ p = 2 ∨ p = 3 ∨ p = 4 ∨
                p = 5 ∨ p = 6 ∨ p = 7 ∨ p = 8 ∨ p = 9) by lia.
  assert (Hqc : q = 0 ∨ q = 1 ∨ q = 2 ∨ q = 3 ∨ q = 4 ∨
                q = 5 ∨ q = 6 ∨ q = 7 ∨ q = 8 ∨ q = 9) by lia.
  repeat (destruct Hpc as [-> | Hpc]);
    repeat (destruct Hqc as [-> | Hqc]); subst; reflexivity.
Qed.

Lemma then_cmp_assoc (c1 c2 c3 : comparison) :
  then_cmp (then_cmp c1 c2) c3 = then_cmp c1 (then_cmp c2 c3).
Proof. destruct c1; reflexivity. Qed.

Lemma compare_quot_rem (a b base : Z) :
  0 < base →
  then_cmp (a / base ?= b / base) (a mod base ?= b mod base) = (a ?= b).
Proof.
  intros Hbase.
  pose proof (Z.div_mod a base) as Ha. pose proof (Z.div_mod b base) as Hb.
  pose proof (Z.mod_pos_bound a base Hbase) as Hra.
  pose proof (Z.mod_pos_bound b base Hbase) as Hrb.
  symmetry.
  destruct (Z.compare_spec (a / base) (b / base)) as [Hq | Hq | Hq]; cbn [then_cmp].
  - destruct (Z.compare_spec (a mod base) (b mod base));
      [apply Z.compare_eq_iff | apply Z.compare_lt_iff | apply Z.compare_gt_iff]; nia.
  - apply Z.compare_lt_iff. nia.
  - apply Z.compare_gt_iff. nia.
Qed.

Lemma compare_String (c1 c2 : ascii) (s1 s2 : string) :
  String.compare (String c1 s1) (String c2 s2)
  = then_cmp (Ascii.compare c1 c2) (String.compare s1 s2).
Proof. cbn [String.compare]. destruct (Ascii.compare c1 c2); reflexivity. Qed.

Lemma compare_zfill (width : nat) :
  ∀ (a b : Z) (r1 r2 : string),
    0 <= a < 10 ^ Z.of_nat width → 0 <= b < 10 ^ Z.of_nat width →
    String.compare (zfill width a +:+ r1) (zfill width b +:+ r2)
    = then_cmp (a ?= b) (String.compare r1 r2).
Proof.
  induction width as [| w IH]; intros a b r1 r2 Ha Hb.
  - change (10 ^ Z.of_nat 0) with 1 in *.
    assert (a = 0) as -> by lia. assert (b = 0) as -> by lia. reflexivity.
  - pose proof (pow10_pos w) as Hp.
    cbn [zfill]. rewrite !append_String, compare_String.
    rewrite compare_digit by (apply leading_digit; assumption).
    rewrite IH by (apply Z.mod_pos_bound; exact Hp).
    rewrite <- then_cmp_assoc, compare_quot_rem by exact Hp. reflexivity.
Qed.

Lemma compare_fraction (ua ub : Z) :
  0 <= ua <= 999999 → 0 <= ub <= 999999 →
  String.compare (if ua =? 0 then EmptyString else String "." (zfill 6 ua))
                 (if ub =? 0 then EmptyString else String "." (zfill 6 ub))
  = (ua ?= ub).
Proof.
  intros Ha Hb. symmetry.
  destruct (Z.eqb_spec ua 0) as [-> | Hna]; destruct (Z.eqb_spec ub 0) as [-> | Hnb].
  - reflexivity.
  - apply Z.compare_lt_iff. lia.
  - apply Z.compare_gt_iff. lia.
  - rewrite compare_String. change (Ascii.compare "." ".") with Eq. cbn [then_cmp].
    rewrite <- (append_empty_r (zfill 6 ua)), <- (append_empty_r (zfill 6 ub)).
    rewrite compare_zfill by (change (10 ^ Z.of_nat 6) with 1000000; lia).
    destruct (ua ?= ub); reflexivity.
Qed.

Lemma compare_isoformat (a b : datetime) :
  valid_datetime a = true → valid_datetime b = true →
  String.compare (isoformat a) (isoformat b) = datetime_cmp a b.
Proof.
  intros Ha Hb.
  apply valid_datetime_ranges in Ha. apply valid_datetime_ranges in Hb.
  destruct a as [y1 m1 d1 hh1 mi1 ss1 us1], b as [y2 m2 d2 hh2 mi2 ss2 us2].
  cbn [year month day hour minute second microsecond] in *.
  unfold isoformat, format_time, datetime_cmp.
  cbn [year month day hour minute second microsecond].
  rewrite ?append_String, ?append_empty_l.
  repeat (rewrite compare_zfill
            by (first [ change (10 ^ Z.of_nat 4) with 10000
                      | change (10 ^ Z.of_nat 2) with 100 ]; lia);
          f_equal;
          try (rewrite compare_String;
               match goal with
               | |- context [Ascii.compare ?c ?c] => change (Ascii.compare c c) with Eq
               end; cbn [then_cmp])).
  apply compare_fraction; lia.
Qed.

Lemma leb_isoformat (a b : datetime) :
  valid_datetime a = true → valid_datetime b = true →
  String.leb (isoformat a) (isoformat b) = datetime_le a b.
Proof.
  intros Ha Hb. unfold String.leb, datetime_le.
  rewrite compare_isoformat by assumption. destruct (datetime_cmp a b); reflexivity.
Qed.

End DatetimeFacts.

(** ** Routing *)

Lemma match_request_health (r : Request) :
  method r = "GET"%string → path r = "/health"%string →
  match_request r = Some Health.
Proof.
  intros Hm Hp. unfold match_request, url_map, rule_matches. cbn [List.find fst snd].
  rewrite Hm, Hp. reflexivity.
Qed.

Lemma match_request_get_projects (r : Request) :
  method r = "GET"%string → path r = "/api/projects"%string →
  match_request r = Some GetProjects.
Proof.
  intros Hm Hp. unfold match_request, url_map, rule_matches. cbn [List.find fst snd].
  rewrite Hm, Hp. reflexivity.
Qed.

Lemma match_request_create_project (r : Request) :
  method r = "POST"%string → path r = "/api/projects"%string →
  match_request r = Some CreateProject.
Proof.
  intros Hm Hp. unfold match_request, url_map, rule_matches. cbn [List.find fst snd].
  rewrite Hm, Hp. reflexivity.
Qed.

(** A request reaches [create_project] only as a POST to [/api/projects]. *)
Lemma match_request_create_project_inv (r : Request) :
  match_request r = Some CreateProject →
  method r = "POST"%string ∧ path r = "/api/projects"%string.
Proof.
  unfold match_request, url_map, rule_matches. cbn [List.find fst snd].
  change (rule_methods ["GET"%string]) with ["GET"%string; "HEAD"%string].
  change (rule_methods ["POST"%string]) with ["POST"%string].
  cbn [existsb].
  repeat match goal with
         | |- context [String.eqb ?a ?b] => destruct (String.eqb_spec a b)
         end; cbn; intros H; try discriminate H; split; assumption.
Qed.

(** Unfold the dispatch of a request whose method and path are known. *)
Ltac route Hm Hp :=
  unfold full_dispatch_request;
  first [ rewrite (match_request_health _ Hm Hp)
        | rewrite (match_request_get_projects _ Hm Hp)
        | rewrite (match_request_create_project _ Hm Hp) ];
  cbn [view_functions].

(** ** The view functions, run *)

Lemma health_runs (project : string) (w : World) :
  health project w =
  (Return (jsonify (<["project" := PStr project]>
                   (<["timestamp" := PStr (isoformat (reading w))]>
                   (<["status" := PStr "healthy"]> ∅)))), tick w).
Proof. reflexivity. Qed.

Lemma get_projects_runs (project : string) (w : World) :
  get_projects project w =
  (Return (jsonify (<["timestamp" := PStr (isoformat (reading w))]>
                   (<["project" := PStr project]>
                   (<["message" := PStr "Projects API endpoint"]> ∅)))), tick w).
Proof. reflexivity. Qed.

Lemma create_project_returns (r : Request) (v : pyvalue) (w : World) :
  get_json r = inr v →
  create_project r w =
  (Return (jsonify (<["timestamp" := PStr (isoformat (reading w))]>
                   (<["data" := v]>
                   (<["message" := PStr "Project created"]> ∅)))), tick w).
Proof.
  intros Hv. unfold create_project, bind, request_get_json. rewrite Hv. reflexivity.
Qed.

Lemma create_project_raises (r : Request) (e : Exception) (w : World) :
  get_json r = inl e → create_project r w = (Raise e, w).
Proof.
  intros He. unfold create_project, bind, request_get_json. rewrite He. reflexivity.
Qed.

(** Every view function either returns a [jsonify] response that carries the
    clock reading, or is [create_project] raising what [get_json] raised. *)
Lemma view_functions_cases (project : string) (ep : Endpoint) (r : Request) (w : World) :
  (∃ d, view_functions project ep r w = (Return (jsonify d), tick w) ∧
        d !! "timestamp" = Some (PStr (isoformat (reading w)))) ∨
  (∃ e, ep = CreateProject ∧ get_json r = inl e ∧
        view_functions project ep r w = (Raise e, w)).
Proof.
  destruct ep; cbn [view_functions].
  - left. eexists. split; [apply health_runs | reflexivity].
  - left. eexists. split; [apply get_projects_runs | reflexivity].
  - destruct (get_json r) as [e | v] eqn:Hj.
    + right. exists e. auto using create_project_raises.
    + left. eexists. split; [apply create_project_returns; exact Hj | reflexivity].
Qed.

(** ** The endpoints *)


(** C2: GET /health is answered with status 200 and a body of exactly the
    fields status, timestamp and project, where status is "healthy"; the
    answer does not depend on anything the request carries, and the view
    function returns without raising. *)
Theorem health_ok (project : string) (r : Request) (w : World) :
  method r = "GET"%string → path r = "/health"%string →
  ∃ rv, health project w = (Return rv, tick w) ∧
        full_dispatch_request project r w = (Some rv, tick w) ∧
        status_code rv = 200 ∧
        fields rv = {[ "status"; "timestamp"; "project" ]} ∧
        field "status" rv = Some (PStr "healthy").
Proof.
  intros Hm Hp. route Hm Hp. rewrite health_runs.
  eexists. split; [reflexivity |]. split; [reflexivity |].
  repeat split; reflexivity.
Qed.

(** C6: GET /api/projects is answered with status 200 and a body of exactly
    the fields message, project and timestamp, where message is
    "Projects API endpoint"; the answer does not depend on anything the
    request carries. *)
Theorem get_projects_ok (project : string) (r : Request) (w : World) :
  method r = "GET"%string → path r = "/api/projects"%string →
  ∃ rv, get_projects project w = (Return rv, tick w) ∧
        full_dispatch_request project r w = (Some rv, tick w) ∧
        status_code rv = 200 ∧
        fields rv = {[ "message"; "project"; "timestamp" ]} ∧
        field "message" rv = Some (PStr "Projects API endpoint").
Proof.
  intros Hm Hp. route Hm Hp. rewrite get_projects_runs.
  eexists. split; [reflexivity |]. split; [reflexivity |].
  repeat split; reflexivity.
Qed.

(** C4: the project field of the answers to GET /health and to
    GET /api/projects is the identifier of the instance, the same string for
    both. *)
Theorem project_field_is_identifier (project : string) (r1 r2 : Request) (w1 w2 : World) :
  method r1 = "GET"%string → path r1 = "/health"%string →
  method r2 = "GET"%string → path r2 = "/api/projects"%string →
  ∃ rv1 rv2,
    full_dispatch_request project r1 w1 = (Some rv1, tick w1) ∧
    full_dispatch_request project r2 w2 = (Some rv2, tick w2) ∧
    field "project" rv1 = Some (PStr project) ∧
    field "project" rv2 = Some (PStr project).
Proof.
  intros Hm1 Hp1 Hm2 Hp2. unfold full_dispatch_request.
  rewrite (match_request_health r1 Hm1 Hp1), (match_request_get_projects r2 Hm2 Hp2).
  cbn [view_functions]. rewrite health_runs, get_projects_runs.
  do 2 eexists. repeat split; reflexivity.
Qed.

(** C3, as the code has it: when [request.get_json()] raises on a POST to
    /api/projects, the request is answered with the framework's error
    response and the world is left as it was: the status is the one of the
    HTTP exception raised (400 for [BadRequest], 415 for
    [UnsupportedMediaType]) and 500 for any other exception.  No other
    request that reaches a view function is answered with a status other
    than 200. *)
Theorem get_json_failure_is_error_response (project : string) (r : Request) (w : World) :
  (∀ e, method r = "POST"%string → path r = "/api/projects"%string →
        get_json r = inl e →
        full_dispatch_request project r w = (Some (handle_user_exception e), w) ∧
        body (handle_user_exception e) = ErrorPage ∧
        status_code (handle_user_exception e)
        = match e with
          | HTTP BadRequest => 400
          | HTTP UnsupportedMediaType => 415
          | _ => 500
          end) ∧
  (∀ rv w', full_dispatch_request project r w = (Some rv, w') →
            status_code rv ≠ 200 →
            method r = "POST"%string ∧ path r = "/api/projects"%string ∧
            ∃ e, get_json r = inl e ∧ rv = handle_user_exception e ∧ w' = w).
Proof.
  split.
  - intros e Hm Hp He. route Hm Hp.
    rewrite (create_project_raises r e w He). split; [reflexivity |].
    destruct e as [[ | ] | | ]; split; reflexivity.
  - intros rv w'. unfold full_dispatch_request.
    destruct (match_request r) as [ep |] eqn:Hroute; [| discriminate].
    destruct (view_functions_cases project ep r w) as [(d & Hrun & _) | (e & -> & He & Hrun)];
      rewrite Hrun; intros Heq Hstatus; inversion Heq; subst.
    + cbn in Hstatus. congruence.
    + apply match_request_create_project_inv in Hroute as [Hm Hp].
      repeat split; try assumption. exists e. repeat split. exact He.
Qed.

(** C3 as stated fails: the POST of 1000 opening brackets, a body that is
    not JSON, is answered with status 500, which is not a client error. *)
Lemma deep_nesting_is_answered_500 :
  method POST_deep = "POST"%string ∧ path POST_deep = "/api/projects"%string ∧
  String.length (data POST_deep) = 1000%nat ∧
  get_json POST_deep = inl RecursionError ∧
  full_dispatch_request sample_project POST_deep (mkWorld steady_clock 0)
  = (Some (mkResponse 500 "text/html" ErrorPage), mkWorld steady_clock 0) ∧
  ¬ (400 <= 500 < 500).
Proof.
  repeat split; try reflexivity. lia.
Qed.

(** C9: when [get_json] yields [None] for a POST to /api/projects (the
    body is the JSON value null, or the framework decoded nothing), the
    answer is status 200 with message "Project created" and data [None];
    two such requests, whatever their bodies and content types, get the same
    answer. *)
Theorem null_payload_is_echoed (project : string) (r1 r2 : Request) (w : World) :
  method r1 = "POST"%string → path r1 = "/api/projects"%string →
  method r2 = "POST"%string → path r2 = "/api/projects"%string →
  get_json r1 = inr PNone → get_json r2 = inr PNone →
  full_dispatch_request project r1 w = full_dispatch_request project r2 w ∧
  ∃ rv, full_dispatch_request project r1 w = (Some rv, tick w) ∧
        status_code rv = 200 ∧
        field "message" rv = Some (PStr "Project created") ∧
        field "data" rv = Some PNone.
Proof.
  intros Hm1 Hp1 Hm2 Hp2 Hj1 Hj2. unfold full_dispatch_request.
  rewrite (match_request_create_project r1 Hm1 Hp1),
          (match_request_create_project r2 Hm2 Hp2).
  cbn [view_functions].
  rewrite (create_project_returns r1 PNone w Hj1), (create_project_returns r2 PNone w Hj2).
  split; [reflexivity |]. eexists. repeat split; reflexivity.
Qed.

(** ** The instances *)

Lemma substitute_own (i j : string) : substitute i j (PStr i) = PStr j.
Proof. unfold substitute. rewrite String.eqb_refl. reflexivity. Qed.

(** C7: for two identifiers [i] and [j] and every request and world, the
    answer of the instance [j] is the answer of the instance [i] with [i]
    replaced by [j] in the project field, and both leave the same world. *)
Theorem instances_differ_by_identifier (i j : string) (r : Request) (w : World) :
  full_dispatch_request j r w
  = (substitute_identifier i j <$> (full_dispatch_request i r w).1,
     (full_dispatch_request i r w).2).
Proof.
  unfold full_dispatch_request.
  destruct (match_request r) as [[ | | ] |]; cbn [view_functions]; [| | | reflexivity].
  - rewrite !health_runs. cbn [fst snd fmap option_fmap option_map].
    unfold substitute_identifier, jsonify; cbn [body status_code mimetype].
    rewrite alter_insert_eq, substitute_own. reflexivity.
  - rewrite !get_projects_runs. cbn [fst snd fmap option_fmap option_map].
    unfold substitute_identifier, jsonify; cbn [body status_code mimetype].
    rewrite alter_insert_ne by discriminate.
    rewrite alter_insert_eq, substitute_own. reflexivity.
  - destruct (get_json r) as [e | v] eqn:Hj.
    + rewrite !(create_project_raises r e w Hj). destruct e as [[ | ] | | ]; reflexivity.
    + rewrite !(create_project_returns r v w Hj).
      cbn [fst snd fmap option_fmap option_map].
      unfold substitute_identifier, jsonify; cbn [body status_code mimetype].
      rewrite !alter_insert_ne by discriminate. rewrite alter_empty. reflexivity.
Qed.

(** ** Startup *)

(** C8: when PORT is set to a string that [int] converts to [n], [app.run]
    is called with port [n]; when PORT is unset, with port 5000; in both
    cases with host 0.0.0.0. *)
Theorem main_port (int_of_str : string → option Z) (environ : gmap string string) :
  (∀ s n, environ !! "PORT" = Some s → int_of_str s = Some n →
          main int_of_str environ = Return (mkAppRun "0.0.0.0" n true)) ∧
  (environ !! "PORT" = None →
   main int_of_str environ = Return (mkAppRun "0.0.0.0" 5000 true)).
Proof.
  split.
  - intros s n Hs Hn. unfold main, environ_get. rewrite Hs. cbn [int]. rewrite Hn.
    reflexivity.
  - intros Hunset. unfold main, environ_get. rewrite Hunset. reflexivity.
Qed.

(** C10: when PORT is set to a string that [int] does not convert, the
    script ends with [ValueError] and [app.run] is not called, with port
    5000 or any other. *)
Theorem main_invalid_port (int_of_str : string → option Z)
    (environ : gmap string string) (s : string) :
  environ !! "PORT" = Some s → int_of_str s = None →
  main int_of_str environ = Raise ValueError ∧
  ∀ run, main int_of_str environ ≠ Return run.
Proof.
  intros Hs Hn. unfold main, environ_get. rewrite Hs. cbn [int]. rewrite Hn.
  split; [reflexivity | discriminate].
Qed.

(** ** Timestamps of a sequence of calls *)

(** A request either leaves the clock alone and is answered without a
    timestamp, or reads the clock once and is answered with that reading. *)
Lemma dispatch_timestamp (project : string) (r : Request) (w : World) :
  ((full_dispatch_request project r w).1 ≫= timestamp = None ∧
   (full_dispatch_request project r w).2 = w) ∨
  ((full_dispatch_request project r w).1 ≫= timestamp = Some (isoformat (reading w)) ∧
   (full_dispatch_request project r w).2 = tick w).
Proof.
  unfold full_dispatch_request.
  destruct (match_request r) as [ep |]; [| left; split; reflexivity].
  destruct (view_functions_cases project ep r w) as [(d & Hrun & Hts) | (e & _ & _ & Hrun)];
    rewrite Hrun.
  - right. split; [| reflexivity].
    cbn [fst mbind option_bind]. unfold timestamp, field, jsonify; cbn [body].
    rewrite Hts. reflexivity.
  - left. split; [| reflexivity]. destruct e as [[ | ] | | ]; reflexivity.
Qed.

(** The timestamps of a run are the successive clock readings, printed. *)
Lemma serve_timestamps (project : string) (requests : list Request) :
  ∀ w, ∃ k : nat,
    timestamps (serve project requests w).1
    = (λ n, isoformat (wall_clock w n)) <$> seq (reads w) k ∧
    (serve project requests w).2 = mkWorld (wall_clock w) (reads w + k).
Proof.
  induction requests as [| r rest IH]; intros w.
  - exists 0%nat. cbn. rewrite Nat.add_0_r. destruct w; split; reflexivity.
  - cbn [serve].
    destruct (dispatch_timestamp project r w) as [[Hts Hw] | [Hts Hw]];
      destruct (full_dispatch_request project r w) as [rv w1];
      cbn [fst snd] in Hts, Hw; subst w1;
      [destruct (IH w) as (k & Hk & Hwk) | destruct (IH (tick w)) as (k & Hk & Hwk)];
      destruct (serve project rest _) as [rvs w2]; cbn [fst snd] in *.
    + exists k. split; [| exact Hwk].
      unfold timestamps in *. cbn [omap list_omap]. rewrite Hts. exact Hk.
    + exists (S k). split.
      * unfold timestamps in *. cbn [omap list_omap]. rewrite Hts.
        cbn [seq fmap list_fmap]. f_equal. exact Hk.
      * rewrite Hwk. cbn [tick wall_clock reads]. f_equal. lia.
Qed.

Lemma StronglySorted_fmap_seq {A : Type} (R : A → A → Prop) (f : nat → A) :
  (∀ n m, (n <= m)%nat → R (f n) (f m)) →
  ∀ k start, StronglySorted R (f <$> seq start k).
Proof.
  intros Hmono. induction k as [| k IH]; intros start; cbn [seq fmap list_fmap].
  - constructor.
  - constructor; [apply IH |].
    apply Forall_fmap, Forall_forall. intros n Hn.
    apply elem_of_seq in Hn. apply Hmono. lia.
Qed.

(** What [full_dispatch_request] can do with a request. *)
Lemma dispatch_cases (project : string) (r : Request) (w : World) :
  (match_request r = None ∧ full_dispatch_request project r w = (None, w)) ∨
  (∃ ep d, match_request r = Some ep ∧
           full_dispatch_request project r w = (Some (jsonify d), tick w) ∧
           d !! "timestamp" = Some (PStr (isoformat (reading w)))) ∨
  (∃ e, match_request r = Some CreateProject ∧ get_json r = inl e ∧
        full_dispatch_request project r w = (Some (handle_user_exception e), w)).
Proof.
  unfold full_dispatch_request.
  destruct (match_request r) as [ep |]; [| left; split; reflexivity].
  right.
  destruct (view_functions_cases project ep r w) as [(d & Hrun & Hts) | (e & -> & He & Hrun)];
    rewrite Hrun.
  - left. exists ep, d. repeat split; assumption.
  - right. exists e. repeat split; assumption.
Qed.

Lemma dispatch_answered_ok (project : string) (r : Request) (w : World) :
  (answered_ok (full_dispatch_request project r w).1 = true ∧
   (full_dispatch_request project r w).2 = tick w) ∨
  (answered_ok (full_dispatch_request project r w).1 = false ∧
   (full_dispatch_request project r w).2 = w).
Proof.
  destruct (dispatch_cases project r w)
    as [[_ H] | [(ep & d & _ & H & _) | (e & _ & _ & H)]]; rewrite H; cbn [fst snd].
  - right. split; reflexivity.
  - left. split; reflexivity.
  - right. split; [| reflexivity]. destruct e as [[ | ] | | ]; reflexivity.
Qed.

(** The answers of a run: each answer of status 200 carries as timestamp
    the printed reading of its call, and the timestamps of the run are the
    successive readings, one for each answer of status 200. *)
Lemma serve_answers (project : string) (requests : list Request) :
  ∀ w,
    Forall (λ rv, ∀ a, rv = Some a → status_code a = 200 →
                  ∃ n, (reads w <= n)%nat ∧
                       field "timestamp" a = Some (PStr (isoformat (wall_clock w n))))
      (serve project requests w).1 ∧
    timestamps (serve project requests w).1
    = (λ n, isoformat (wall_clock w n))
        <$> seq (reads w) (count_ok (serve project requests w).1).
Proof.
  induction requests as [| r rest IH]; intros w.
  - split; [constructor | reflexivity].
  - cbn [serve].
    destruct (dispatch_cases project r w)
      as [[_ H] | [(ep & d & _ & H & Hts) | (e & _ & _ & H)]]; rewrite H;
      [destruct (IH w) as [Hall Hlist] | destruct (IH (tick w)) as [Hall Hlist]
       | destruct (IH w) as [Hall Hlist]];
      destruct (serve project rest _) as [rvs w2]; cbn [fst snd] in *.
    + split; [constructor; [intros a Ha; discriminate Ha | exact Hall] | exact Hlist].
    + split.
      * constructor.
        -- intros a [= <-] _. exists (reads w). split; [lia | exact Hts].
        -- eapply Forall_impl; [exact Hall |]. cbn beta.
           intros rv Hrv a Ha Hok. destruct (Hrv a Ha Hok) as (n & Hn & Hfield).
           exists n. split; [cbn [tick reads] in Hn; lia | exact Hfield].
      * unfold timestamps, count_ok in *. cbn [omap list_omap mbind option_bind].
        unfold timestamp at 1, field at 1, jsonify at 1; cbn [body].
        rewrite Hts. cbn [List.filter answered_ok jsonify status_code].
        change (200 =? 200) with true. cbn [length seq fmap list_fmap].
        f_equal. exact Hlist.
    + split.
      * constructor; [| exact Hall].
        intros a [= <-] Hok. destruct e as [[ | ] | | ]; discriminate Hok.
      * unfold timestamps, count_ok in *. cbn [omap list_omap mbind option_bind].
        replace (timestamp (handle_user_exception e)) with (@None string)
          by (destruct e as [[ | ] | | ]; reflexivity).
        replace (List.filter answered_ok (Some (handle_user_exception e) :: rvs))
          with (List.filter answered_ok rvs)
          by (destruct e as [[ | ] | | ]; reflexivity).
        exact Hlist.
Qed.

(** C5, as the code has it: every answer of status 200 carries a timestamp
    field that is a string, the printed reading of the wall clock at its
    call, and a valid ISO-8601 string; the timestamps of a run are the
    successive readings, one for each such answer; and they are in
    non-decreasing order in the order of the calls, as instants and as
    strings, whenever the readings of the wall clock are. *)
Theorem timestamps_follow_clock (project : string) (requests : list Request) (w : World) :
  (∀ n, valid_datetime (wall_clock w n) = true) →
  Forall (λ rv, ∀ a, rv = Some a → status_code a = 200 →
                ∃ n, field "timestamp" a = Some (PStr (isoformat (wall_clock w n))) ∧
                     is_iso8601 (isoformat (wall_clock w n)) = true)
    (serve project requests w).1 ∧
  timestamps (serve project requests w).1
  = (λ n, isoformat (wall_clock w n))
      <$> seq (reads w) (count_ok (serve project requests w).1) ∧
  Forall (λ s, is_iso8601 s = true) (timestamps (serve project requests w).1) ∧
  ((∀ n m, (n <= m)%nat → datetime_le (wall_clock w n) (wall_clock w m) = true) →
   StronglySorted (λ s1 s2, timestamp_le s1 s2 = true)
     (timestamps (serve project requests w).1) ∧
   StronglySorted (λ s1 s2, String.leb s1 s2 = true)
     (timestamps (serve project requests w).1)).
Proof.
  intros Hvalid.
  destruct (serve_answers project requests w) as [Hall Hlist].
  split; [| split; [exact Hlist |]].
  - eapply Forall_impl; [exact Hall |]. cbn beta.
    intros rv Hrv a Ha Hok. destruct (Hrv a Ha Hok) as (n & _ & Hfield).
    exists n. split; [exact Hfield |].
    apply DatetimeFacts.isoformat_is_iso8601, Hvalid.
  - rewrite Hlist. split.
    + apply Forall_fmap, Forall_forall. intros n _. cbn.
      apply DatetimeFacts.isoformat_is_iso8601, Hvalid.
    + intros Hmono. split; apply StronglySorted_fmap_seq; intros n m Hnm.
      * rewrite DatetimeFacts.timestamp_le_isoformat by apply Hvalid.
        apply Hmono, Hnm.
      * rewrite DatetimeFacts.leb_isoformat by apply Hvalid.
        apply Hmono, Hnm.
Qed.

(** C5 as stated fails: two calls of GET /health in a process whose local
    clock is set back between them return decreasing timestamps. *)
Lemma timestamps_decrease_when_clock_steps_back :
  valid_datetime (fall_back_clock 0) = true ∧
  valid_datetime (fall_back_clock 1) = true ∧
  timestamps (serve sample_project [GET "/health"; GET "/health"]
                (mkWorld fall_back_clock 0)).1
  = ["2024-11-03T01:59:59.500000"%string; "2024-11-03T01:00:00.250000"%string] ∧
  timestamp_le "2024-11-03T01:59:59.500000" "2024-11-03T01:00:00.250000" = false ∧
  String.leb "2024-11-03T01:59:59.500000" "2024-11-03T01:00:00.250000" = false ∧
  ¬ StronglySorted (λ s1 s2, timestamp_le s1 s2 = true)
      (timestamps (serve sample_project [GET "/health"; GET "/health"]
                     (mkWorld fall_back_clock 0)).1).
Proof.
  repeat split; try reflexivity.
  intros Hsorted. apply StronglySorted_inv in Hsorted as [_ Hall].
  apply Forall_inv in Hall. discriminate Hall.
Qed.

(** ** The theorems at sample inputs *)


Lemma health_ok_witness :
  ∃ rv, health sample_project (mkWorld steady_clock 3) = (Return rv, mkWorld steady_clock 4) ∧
        full_dispatch_request sample_project (GET "/health") (mkWorld steady_clock 3)
        = (Some rv, mkWorld steady_clock 4) ∧
        status_code rv = 200 ∧
        fields rv = {[ "status"; "timestamp"; "project" ]} ∧
        field "status" rv = Some (PStr "healthy").
Proof.
  apply (health_ok sample_project (GET "/health") (mkWorld steady_clock 3)); reflexivity.
Defined.

Lemma get_projects_ok_witness :
  ∃ rv, get_projects sample_project (mkWorld steady_clock 3)
        = (Return rv, mkWorld steady_clock 4) ∧
        full_dispatch_request sample_project (GET "/api/projects") (mkWorld steady_clock 3)
        = (Some rv, mkWorld steady_clock 4) ∧
        status_code rv = 200 ∧
        fields rv = {[ "message"; "project"; "timestamp" ]} ∧
        field "message" rv = Some (PStr "Projects API endpoint").
Proof.
  apply (get_projects_ok sample_project (GET "/api/projects") (mkWorld steady_clock 3));
    reflexivity.
Defined.

Lemma project_field_is_identifier_witness :
  ∃ rv1 rv2,
    full_dispatch_request sample_project (GET "/health") (mkWorld steady_clock 0)
    = (Some rv1, mkWorld steady_clock 1) ∧
    full_dispatch_request sample_project (GET "/api/projects") (mkWorld steady_clock 7)
    = (Some rv2, mkWorld steady_clock 8) ∧
    field "project" rv1 = Some (PStr "0d5e630e-d302-4f92-b4ef-f1645b372a43") ∧
    field "project" rv2 = Some (PStr "0d5e630e-d302-4f92-b4ef-f1645b372a43").
Proof.
  apply (project_field_is_identifier sample_project
           (GET "/health") (GET "/api/projects")
           (mkWorld steady_clock 0) (mkWorld steady_clock 7)); reflexivity.
Defined.

Lemma get_json_failure_is_error_response_witness :
  (full_dispatch_request sample_project (POST_json "/api/projects" "{name" None)
     (mkWorld steady_clock 0)
   = (Some (mkResponse 400 "text/html" ErrorPage), mkWorld steady_clock 0) ∧
   ErrorPage = ErrorPage ∧ 400 = 400) ∧
  (method POST_deep = "POST"%string ∧ path POST_deep = "/api/projects"%string ∧
   ∃ e, get_json POST_deep = inl e ∧
        mkResponse 500 "text/html" ErrorPage = handle_user_exception e ∧
        mkWorld steady_clock 3 = mkWorld steady_clock 3).
Proof.
  split.
  - apply (proj1 (get_json_failure_is_error_response sample_project
                    (POST_json "/api/projects" "{name" None) (mkWorld steady_clock 0))
             (HTTP BadRequest)); reflexivity.
  - apply (proj2 (get_json_failure_is_error_response sample_project
                    POST_deep (mkWorld steady_clock 3))
             (mkResponse 500 "text/html" ErrorPage) (mkWorld steady_clock 3));
      [reflexivity | discriminate].
Defined.

Lemma null_payload_is_echoed_witness :
  full_dispatch_request sample_project POST_null (mkWorld steady_clock 0)
  = full_dispatch_request sample_project POST_nothing (mkWorld steady_clock 0) ∧
  ∃ rv, full_dispatch_request sample_project POST_null (mkWorld steady_clock 0)
        = (Some rv, mkWorld steady_clock 1) ∧
        status_code rv = 200 ∧
        field "message" rv = Some (PStr "Project created") ∧
        field "data" rv = Some PNone.
Proof.
  apply (null_payload_is_echoed sample_project POST_null POST_nothing
           (mkWorld steady_clock 0)); reflexivity.
Defined.

Lemma steady_clock_valid (n : nat) : valid_datetime (steady_clock n) = true.
Proof.
  unfold valid_datetime, steady_clock, in_range.
  cbn [year month day hour minute second microsecond].
  repeat (apply andb_true_intro; split); try reflexivity; apply Z.leb_le; lia.
Qed.

Lemma steady_clock_monotone (n m : nat) :
  (n <= m)%nat → datetime_le (steady_clock n) (steady_clock m) = true.
Proof.
  intros Hnm. unfold datetime_le, datetime_cmp, steady_clock.
  cbn [year month day hour minute second microsecond then_cmp Z.compare Pos.compare
       Pos.compare_cont].
  destruct (Z.compare_spec (Z.min (Z.of_nat n) 999999) (Z.min (Z.of_nat m) 999999));
    [reflexivity | reflexivity | lia].
Qed.

Lemma timestamps_follow_clock_witness :
  Forall (λ rv, ∀ a, rv = Some a → status_code a = 200 →
                ∃ n, field "timestamp" a = Some (PStr (isoformat (steady_clock n))) ∧
                     is_iso8601 (isoformat (steady_clock n)) = true)
    (serve sample_project sample_requests (mkWorld steady_clock 0)).1 ∧
  timestamps (serve sample_project sample_requests (mkWorld steady_clock 0)).1
  = (λ n, isoformat (steady_clock n))
      <$> seq 0 (count_ok (serve sample_project sample_requests (mkWorld steady_clock 0)).1) ∧
  Forall (λ s, is_iso8601 s = true)
    (timestamps (serve sample_project sample_requests (mkWorld steady_clock 0)).1) ∧
  StronglySorted (λ s1 s2, timestamp_le s1 s2 = true)
    (timestamps (serve sample_project sample_requests (mkWorld steady_clock 0)).1) ∧
  StronglySorted (λ s1 s2, String.leb s1 s2 = true)
    (timestamps (serve sample_project sample_requests (mkWorld steady_clock 0)).1).
Proof.
  destruct (timestamps_follow_clock sample_project sample_requests
              (mkWorld steady_clock 0) steady_clock_valid)
    as (Hanswers & Hlist & Hiso & Hsorted).
  split; [exact Hanswers |]. split; [exact Hlist |]. split; [exact Hiso |].
  exact (Hsorted steady_clock_monotone).
Defined.

Lemma main_port_witness :
  main decimal_literal {[ "PORT"%string := "8080"%string ]}
  = Return (mkAppRun "0.0.0.0" 8080 true) ∧
  main decimal_literal ∅ = Return (mkAppRun "0.0.0.0" 5000 true).
Proof.
  split.
  - apply (proj1 (main_port decimal_literal {[ "PORT"%string := "8080"%string ]})
             "8080"%string 8080); reflexivity.
  - apply (proj2 (main_port decimal_literal ∅)); reflexivity.
Defined.

Lemma main_invalid_port_witness :
  main decimal_literal {[ "PORT"%string := "http"%string ]} = Raise ValueError ∧
  ∀ run, main decimal_literal {[ "PORT"%string := "http"%string ]} ≠ Return run.
Proof.
  apply (main_invalid_port decimal_literal {[ "PORT"%string := "http"%string ]}
           "http"%string); reflexivity.
Defined.

(** ** Runs *)

Example isoformat_with_fraction :
  isoformat (mkDatetime 2024 3 9 7 5 1 4200) = "2024-03-09T07:05:01.004200"%string.
Proof. reflexivity. Qed.

Example isoformat_whole_second :
  isoformat (mkDatetime 987 12 31 23 59 59 0) = "0987-12-31T23:59:59"%string.
Proof. reflexivity. Qed.

Example sample_run_statuses :
  List.map (option_map status_code)
    (serve sample_project sample_requests (mkWorld steady_clock 0)).1
  = [Some 200; Some 200; Some 400; Some 200; Some 200; Some 500].
Proof. reflexivity. Qed.

Example sample_run_timestamps :
  timestamps (serve sample_project sample_requests (mkWorld steady_clock 0)).1
  = ["2024-06-01T12:00:00"%string; "2024-06-01T12:00:00.000001"%string;
     "2024-06-01T12:00:00.000002"%string; "2024-06-01T12:00:00.000003"%string].
Proof. reflexivity. Qed.

Example instances_distinct : NoDup instances ∧ sample_project ∈ instances.
Proof. split; [compute_done | apply list_elem_of_here]. Qed.

Example head_runs_the_view_function :
  match_request (HEAD "/api/projects") = Some GetProjects ∧
  match_request (HEAD "/health") = Some Health ∧
  (full_dispatch_request sample_project (HEAD "/health") (mkWorld steady_clock 0)).2
  = mkWorld steady_clock 1.
Proof. repeat split; reflexivity. Qed.

Example options_and_other_methods_run_no_view_function :
  match_request (mkRequest "OPTIONS" "/health" None EmptyString (inr PNone)) = None ∧
  match_request (mkRequest "POST" "/health" None EmptyString (inr PNone)) = None ∧
  match_request (mkRequest "PUT" "/api/projects" None EmptyString (inr PNone)) = None.
Proof. repeat split; reflexivity. Qed.

Example unrouted_request :
  full_dispatch_request sample_project (GET "/") (mkWorld steady_clock 0)
  = (None, mkWorld steady_clock 0).
Proof. reflexivity. Qed.

Example main_empty_port :
  main decimal_literal {[ "PORT"%string := EmptyString ]} = Raise ValueError.
Proof. reflexivity. Qed.

(** * Further properties of [server.py] *)

(** ** Routing *)

(** X1: the requests that run a view function are exactly GET and HEAD of
    /health (health), GET and HEAD of /api/projects (get_projects) and POST
    of /api/projects (create_project); every other request runs none. *)
Theorem match_request_spec (r : Request) (ep : Endpoint) :
  match_request r = Some ep ↔
  (ep = Health ∧ (method r = "GET"%string ∨ method r = "HEAD"%string) ∧
   path r = "/health"%string) ∨
  (ep = GetProjects ∧ (method r = "GET"%string ∨ method r = "HEAD"%string) ∧
   path r = "/api/projects"%string) ∨
  (ep = CreateProject ∧ method r = "POST"%string ∧ path r = "/api/projects"%string).
Proof.
  unfold match_request, url_map, rule_matches. cbn [List.find fst snd].
  change (rule_methods ["GET"%string]) with ["GET"%string; "HEAD"%string].
  change (rule_methods ["POST"%string]) with ["POST"%string].
  cbn [existsb].
  split.
  - repeat match goal with
           | |- context [String.eqb ?a ?b] => destruct (String.eqb_spec a b)
           end; cbn; intros H; try discriminate H;
      injection H as <-; try congruence; auto 10.
  - intros [(-> & [Hm | Hm] & Hp) | [(-> & [Hm | Hm] & Hp) | (-> & Hm & Hp)]];
      rewrite Hm, Hp; reflexivity.
Qed.

Lemma match_request_spec_witness :
  match_request (HEAD "/health") = Some Health.
Proof.
  apply (proj2 (match_request_spec (HEAD "/health") Health)).
  left. split; [reflexivity |]. split; [right |]; reflexivity.
Defined.

(** ** Answers *)



(** X3: the answer to a request depends on the request and on the clock
    reading at the call only: nothing an earlier call did, and nothing else
    of the world, shows in it. *)
Theorem answer_depends_on_reading (project : string) (r : Request) (w1 w2 : World) :
  reading w1 = reading w2 →
  (full_dispatch_request project r w1).1 = (full_dispatch_request project r w2).1.
Proof.
  intros Hreading. unfold full_dispatch_request.
  destruct (match_request r) as [[ | | ] |]; cbn [view_functions]; [| | | reflexivity].
  - rewrite !health_runs, Hreading. reflexivity.
  - rewrite !get_projects_runs, Hreading. reflexivity.
  - destruct (get_json r) as [e | v] eqn:Hj.
    + rewrite !(create_project_raises r e _ Hj). reflexivity.
    + rewrite !(create_project_returns r v _ Hj), Hreading. reflexivity.
Qed.

Lemma answer_depends_on_reading_witness :
  (full_dispatch_request sample_project (GET "/health") (mkWorld fall_back_clock 1)).1
  = (full_dispatch_request sample_project (GET "/health") (mkWorld fall_back_clock 40)).1.
Proof.
  apply (answer_depends_on_reading sample_project (GET "/health")
           (mkWorld fall_back_clock 1) (mkWorld fall_back_clock 40)).
  reflexivity.
Defined.

(** ** Runs of several requests *)

(** Serving two batches one after the other is serving their
    concatenation: the second batch starts in the world the first left. *)
Lemma serve_app (project : string) (requests1 requests2 : list Request) (w : World) :
  serve project (requests1 ++ requests2) w
  = ((serve project requests1 w).1
       ++ (serve project requests2 (serve project requests1 w).2).1,
     (serve project requests2 (serve project requests1 w).2).2).
Proof.
  revert w. induction requests1 as [| r rest IH]; intros w.
  - cbn [app serve fst snd]. destruct (serve project requests2 w); reflexivity.
  - cbn [app serve].
    destruct (full_dispatch_request project r w) as [rv w1].
    rewrite IH.
    destruct (serve project rest w1) as [rvs w2]. cbn [fst snd].
    destruct (serve project requests2 w2) as [rvs' w3]. reflexivity.
Qed.

(** X4: a run gives one answer per request, reads the clock once for each
    answer of status 200 and not at all for the others, and leaves the
    clock itself as it was. *)
Theorem serve_reads_clock_per_ok (project : string) (requests : list Request) (w : World) :
  length (serve project requests w).1 = length requests ∧
  reads (serve project requests w).2
  = (reads w + count_ok (serve project requests w).1)%nat ∧
  wall_clock (serve project requests w).2 = wall_clock w.
Proof.
  revert w. induction requests as [| r rest IH]; intros w.
  - cbn. repeat split. lia.
  - cbn [serve].
    destruct (dispatch_answered_ok project r w) as [[Hok Hw] | [Hok Hw]];
      destruct (full_dispatch_request project r w) as [rv w1];
      cbn [fst snd] in Hok, Hw; subst w1;
      [specialize (IH (tick w)) | specialize (IH w)];
      destruct (serve project rest _) as [rvs w2]; cbn [fst snd] in *;
      destruct IH as (Hlen & Hreads & Hclock);
      unfold count_ok in *; cbn [List.filter length]; rewrite Hok; cbn [length];
      repeat split; try lia; try assumption.
    rewrite Hreads. cbn [tick reads]. lia.
Qed.

(** ** Where the identifier shows *)

(** X5: two instances answer a request alike exactly when they have the
    same identifier or the request is not one of the two GET routes: the
    answers to POST /api/projects do not show the identifier, those of the
    GET routes always do. *)
Theorem identifier_shows_in_get_only (i j : string) (r : Request) (w : World) :
  full_dispatch_request i r w = full_dispatch_request j r w ↔
  (i = j ∨ match_request r = Some CreateProject ∨ match_request r = None).
Proof.
  unfold full_dispatch_request. split.
  - destruct (match_request r) as [[ | | ] |]; cbn [view_functions]; auto.
    + rewrite !health_runs. intros H. left.
      apply (f_equal (λ x, x.1 ≫= field "project")) in H.
      cbn [fst mbind option_bind] in H. unfold field, jsonify in H; cbn [body] in H.
      rewrite !lookup_insert_eq in H. congruence.
    + rewrite !get_projects_runs. intros H. left.
      apply (f_equal (λ x, x.1 ≫= field "project")) in H.
      cbn [fst mbind option_bind] in H. unfold field, jsonify in H; cbn [body] in H.
      rewrite !(lookup_insert_ne _ "timestamp" "project") in H by discriminate.
      rewrite !lookup_insert_eq in H. congruence.
  - intros [-> | [-> | ->]]; [reflexivity | | reflexivity].
    cbn [view_functions].
    destruct (get_json r) as [e | v] eqn:Hj.
    + rewrite !(create_project_raises r e w Hj). reflexivity.
    + rewrite !(create_project_returns r v w Hj). reflexivity.
Qed.

Lemma identifier_shows_in_get_only_witness :
  full_dispatch_request "0d5e630e-d302-4f92-b4ef-f1645b372a43"
    (POST_json "/api/projects" demo_body (Some demo_payload)) (mkWorld steady_clock 0)
  = full_dispatch_request "eb43a8a3-f1b3-41e1-a900-885fc864eef7"
      (POST_json "/api/projects" demo_body (Some demo_payload)) (mkWorld steady_clock 0).
Proof.
  apply (proj2 (identifier_shows_in_get_only
                  "0d5e630e-d302-4f92-b4ef-f1645b372a43"
                  "eb43a8a3-f1b3-41e1-a900-885fc864eef7"
                  (POST_json "/api/projects" demo_body (Some demo_payload))
                  (mkWorld steady_clock 0))).
  right. left. reflexivity.
Defined.

(** ** The text of a timestamp *)

Lemma length_append (s t : string) :
  String.length (s +:+ t) = (String.length s + String.length t)%nat.
Proof.
  induction s as [| c s IH]; [reflexivity |].
  rewrite DatetimeFacts.append_String. cbn [String.length]. rewrite IH. reflexivity.
Qed.

Lemma length_zfill (width : nat) : ∀ n, String.length (zfill width n) = width.
Proof.
  induction width as [| k IH]; intros n; cbn [zfill String.length];
    [| rewrite IH]; reflexivity.
Qed.

Lemma length_isoformat (d : datetime) :
  String.length (isoformat d) = if microsecond d =? 0 then 19%nat else 26%nat.
Proof.
  unfold isoformat, format_time.
  repeat rewrite ?length_append, ?length_zfill.
  destruct (microsecond d =? 0); cbn [String.length].
  - reflexivity.
  - rewrite length_append, length_zfill. reflexivity.
Qed.

(** The timestamp of an answer is the printed reading of the call. *)
Lemma answer_timestamp (project : string) (r : Request) (w w' : World)
    (rv : Response) (ts : string) :
  full_dispatch_request project r w = (Some rv, w') →
  timestamp rv = Some ts →
  ts = isoformat (reading w).
Proof.
  intros Hrun Hts.
  destruct (dispatch_timestamp project r w) as [[H _] | [H _]];
    rewrite Hrun in H; cbn [fst mbind option_bind] in H; congruence.
Qed.



(** X7: a timestamp has 19 characters when the reading falls on a whole
    second (no fraction is printed) and 26 characters otherwise. *)
Theorem timestamp_length (project : string) (r : Request) (w w' : World)
    (rv : Response) (ts : string) :
  valid_datetime (reading w) = true →
  full_dispatch_request project r w = (Some rv, w') →
  timestamp rv = Some ts →
  String.length ts = if microsecond (reading w) =? 0 then 19%nat else 26%nat.
Proof.
  intros _ Hrun Hts.
  rewrite (answer_timestamp project r w w' rv ts Hrun Hts).
  apply length_isoformat.
Qed.

Lemma timestamp_length_witness :
  String.length "2024-06-01T12:00:00" = 19%nat.
Proof.
  apply (timestamp_length sample_project (GET "/api/projects")
           (mkWorld steady_clock 0) (mkWorld steady_clock 1)
           (jsonify (<["timestamp" := PStr "2024-06-01T12:00:00"]>
                    (<["project" := PStr sample_project]>
                    (<["message" := PStr "Projects API endpoint"]> ∅))))
           "2024-06-01T12:00:00"); reflexivity.
Defined.



(** ** Startup *)

(** X9: every outcome of the startup block.  When [app.run] is called, it
    is with host 0.0.0.0 and the debugger on, and the port is 5000 for an
    unset PORT or the integer of a set one; when the block raises, it is
    [ValueError], for a PORT that is set and that [int] does not convert. *)
Theorem main_outcomes (int_of_str : string → option Z) (environ : gmap string string) :
  (∀ run, main int_of_str environ = Return run →
          host run = "0.0.0.0"%string ∧ debug run = true ∧
          ((environ !! "PORT" = None ∧ port run = 5000) ∨
           (∃ s, environ !! "PORT" = Some s ∧ int_of_str s = Some (port run)))) ∧
  (∀ e, main int_of_str environ = Raise e →
        e = ValueError ∧ ∃ s, environ !! "PORT" = Some s ∧ int_of_str s = None).
Proof.
  unfold main, environ_get.
  destruct (environ !! "PORT") as [s |] eqn:Hport; cbn [int].
  - destruct (int_of_str s) as [n |] eqn:Hint; split.
    + intros run [= <-]. cbn [host debug port]. repeat split. right. eauto.
    + intros e H. discriminate H.
    + intros run H. discriminate H.
    + intros e [= <-]. split; [reflexivity | eauto].
  - split.
    + intros run [= <-]. cbn [host debug port]. repeat split. left. auto.
    + intros e H. discriminate H.
Qed.

Lemma main_outcomes_witness :
  ValueError = ValueError ∧
  ∃ s, ({[ "PORT"%string := "80 80"%string ]} : gmap string string) !! "PORT" = Some s ∧
       decimal_literal s = None.
Proof.
  apply (proj2 (main_outcomes decimal_literal {[ "PORT"%string := "80 80"%string ]})).
  reflexivity.
Defined.


